(** * The Windows plugin registrant of WonderNestApp

    A shallow embedding of
    [WonderNestApp/windows/flutter/generated_plugin_registrant.cc] and the
    properties of its single function, [RegisterPlugins].

    The function talks to code that lives outside the translation unit: the
    host framework's registry object (one virtual method,
    [GetRegistrarForPlugin]) and nine registration entry points exported by
    the plugin libraries.  The embedding keeps those calls as nodes of a
    finite call tree; a host supplies their behaviour, and running the tree
    against a host yields the final program state together with the trace of
    external calls.

    Modelling assumptions, all of them about the code outside the file:
    - [registry] designates a live registry object;
    - an external call returns to its caller (it may have changed any part
      of the program state it likes). *)

From Stdlib Require Import String List NArith ZArith Lia.
From Stdlib Require Import Ascii Bool.
Import ListNotations.
Local Open Scope string_scope.
Local Open Scope list_scope.

(** ** External symbols *)

(** The nine registration entry points called on lines 20-37.  Each is a
    void function of one registrar handle, declared by one of the headers
    included on lines 9-17, one header per plugin package. *)
Inductive EntryPoint : Type :=
| AudioplayersWindowsPluginRegisterWithRegistrar
| ConnectivityPlusWindowsPluginRegisterWithRegistrar
| FlutterInappwebviewWindowsPluginCApiRegisterWithRegistrar
| FlutterSecureStorageWindowsPluginRegisterWithRegistrar
| LocalAuthPluginRegisterWithRegistrar
| PermissionHandlerWindowsPluginRegisterWithRegistrar
| RecordWindowsPluginCApiRegisterWithRegistrar
| SpeechToTextWindowsRegisterWithRegistrar
| UrlLauncherWindowsRegisterWithRegistrar.

(** The identifier under which the source calls each entry point. *)
Definition symbol (f : EntryPoint) : string :=
  match f with
  | AudioplayersWindowsPluginRegisterWithRegistrar =>
      "AudioplayersWindowsPluginRegisterWithRegistrar"
  | ConnectivityPlusWindowsPluginRegisterWithRegistrar =>
      "ConnectivityPlusWindowsPluginRegisterWithRegistrar"
  | FlutterInappwebviewWindowsPluginCApiRegisterWithRegistrar =>
      "FlutterInappwebviewWindowsPluginCApiRegisterWithRegistrar"
  | FlutterSecureStorageWindowsPluginRegisterWithRegistrar =>
      "FlutterSecureStorageWindowsPluginRegisterWithRegistrar"
  | LocalAuthPluginRegisterWithRegistrar =>
      "LocalAuthPluginRegisterWithRegistrar"
  | PermissionHandlerWindowsPluginRegisterWithRegistrar =>
      "PermissionHandlerWindowsPluginRegisterWithRegistrar"
  | RecordWindowsPluginCApiRegisterWithRegistrar =>
      "RecordWindowsPluginCApiRegisterWithRegistrar"
  | SpeechToTextWindowsRegisterWithRegistrar =>
      "SpeechToTextWindowsRegisterWithRegistrar"
  | UrlLauncherWindowsRegisterWithRegistrar =>
      "UrlLauncherWindowsRegisterWithRegistrar"
  end.

(** Every entry point's identifier ends in this suffix; what precedes it is
    the plugin's class name. *)
Definition RegisterWithRegistrar : string := "RegisterWithRegistrar".

Definition EntryPoint_eq_dec (f g : EntryPoint) : {f = g} + {f <> g}.
Proof. decide equality. Defined.

(** ** Call trees *)

Section CallTree.
(** [Registry] stands for [flutter::PluginRegistry*] and [Registrar] for
    [FlutterDesktopPluginRegistrarRef], a pointer to a struct the file never
    sees the definition of.  Both stay abstract here. *)
Context {Registry Registrar : Type}.

(** What a function body of this translation unit can do: return, leave
    by an exception, ask the registry for a registrar and go on with the
    handle it returned, or call an entry point (a void function) and go
    on. *)
Inductive Cxx (A : Type) : Type :=
| Return (a : A)
| Throw (what : string)
| Call_GetRegistrarForPlugin
    (registry : Registry) (plugin_name : string) (k : Registrar -> Cxx A)
| Call_entry (f : EntryPoint) (registrar : Registrar) (k : Cxx A).

Arguments Return {A} a.
Arguments Throw {A} what.
Arguments Call_GetRegistrarForPlugin {A} registry plugin_name k.
Arguments Call_entry {A} f registrar k.

Fixpoint bind {A B : Type} (m : Cxx A) (g : A -> Cxx B) : Cxx B :=
  match m with
  | Return a => g a
  | Throw what => Throw what
  | Call_GetRegistrarForPlugin registry plugin_name k =>
      Call_GetRegistrarForPlugin registry plugin_name (fun r => bind (k r) g)
  | Call_entry f registrar k =>
      Call_entry f registrar (bind k g)
  end.

(** [registry->GetRegistrarForPlugin(plugin_name)] *)
Definition GetRegistrarForPlugin (registry : Registry) (plugin_name : string)
  : Cxx Registrar :=
  Call_GetRegistrarForPlugin registry plugin_name Return.

(** [f(registrar)] for an entry point [f]. *)
Definition invoke (f : EntryPoint) (registrar : Registrar) : Cxx unit :=
  Call_entry f registrar (Return tt).
End CallTree.

Arguments Cxx : clear implicits.
Arguments Return {Registry Registrar A} a.
Arguments Throw {Registry Registrar A} what.
Arguments Call_GetRegistrarForPlugin {Registry Registrar A} registry plugin_name k.
Arguments Call_entry {Registry Registrar A} f registrar k.

Declare Scope cxx_scope.
Delimit Scope cxx_scope with cxx.
Notation "x <- m ;; k" := (bind m (fun x => k))
  (at level 61, m at next level, right associativity) : cxx_scope.
Notation "m ;; k" := (bind m (fun _ => k))
  (at level 61, right associativity) : cxx_scope.

(** ** The registrant *)

Section Registrant.
Context {Registry Registrar : Type}.

(** Lines 19-38, statement by statement: the argument of each call is
    evaluated first, then the call is made. *)
Definition RegisterPlugins (registry : Registry)
  : Cxx Registry Registrar unit :=
  (r <- GetRegistrarForPlugin registry "AudioplayersWindowsPlugin" ;;
   invoke AudioplayersWindowsPluginRegisterWithRegistrar r ;;
   r <- GetRegistrarForPlugin registry "ConnectivityPlusWindowsPlugin" ;;
   invoke ConnectivityPlusWindowsPluginRegisterWithRegistrar r ;;
   r <- GetRegistrarForPlugin registry "FlutterInappwebviewWindowsPluginCApi" ;;
   invoke FlutterInappwebviewWindowsPluginCApiRegisterWithRegistrar r ;;
   r <- GetRegistrarForPlugin registry "FlutterSecureStorageWindowsPlugin" ;;
   invoke FlutterSecureStorageWindowsPluginRegisterWithRegistrar r ;;
   r <- GetRegistrarForPlugin registry "LocalAuthPlugin" ;;
   invoke LocalAuthPluginRegisterWithRegistrar r ;;
   r <- GetRegistrarForPlugin registry "PermissionHandlerWindowsPlugin" ;;
   invoke PermissionHandlerWindowsPluginRegisterWithRegistrar r ;;
   r <- GetRegistrarForPlugin registry "RecordWindowsPluginCApi" ;;
   invoke RecordWindowsPluginCApiRegisterWithRegistrar r ;;
   r <- GetRegistrarForPlugin registry "SpeechToTextWindows" ;;
   invoke SpeechToTextWindowsRegisterWithRegistrar r ;;
   r <- GetRegistrarForPlugin registry "UrlLauncherWindows" ;;
   invoke UrlLauncherWindowsRegisterWithRegistrar r)%cxx.
End Registrant.

(** ** Hosts, runs and traces *)

Section Semantics.
Context {Registry Registrar : Type}.

(** One external call as it happened: the arguments the caller passed
    and, for a registrar request, the handle the registry returned. *)
Inductive Event : Type :=
| Requested (registry : Registry) (plugin_name : string) (returned : Registrar)
| Registered (f : EntryPoint) (registrar : Registrar).

(** The code on the other side of the calls, acting on the whole program
    state [W]: the registry's virtual method and the plugins' entry
    points. *)
Record Host (W : Type) : Type := {
  host_GetRegistrarForPlugin : Registry -> string -> W -> Registrar * W;
  host_entry : EntryPoint -> Registrar -> W -> W
}.

Inductive Outcome (A : Type) : Type :=
| Normal (a : A)
| Exceptional (what : string).

Record Run (W A : Type) : Type := {
  outcome : Outcome A;
  final : W;
  trace : list Event
}.

Arguments host_GetRegistrarForPlugin {W} _ _ _ _.
Arguments host_entry {W} _ _ _ _.
Arguments Normal {A} a.
Arguments Exceptional {A} what.
Arguments Build_Run {W A} _ _ _.
Arguments outcome {W A} _.
Arguments final {W A} _.
Arguments trace {W A} _.

Definition log {W A : Type} (e : Event) (r : Run W A) : Run W A :=
  Build_Run (outcome r) (final r) (e :: trace r).

Fixpoint run {W A : Type} (h : Host W) (p : Cxx Registry Registrar A) (w : W)
  : Run W A :=
  match p with
  | Return a => Build_Run (Normal a) w []
  | Throw what => Build_Run (Exceptional what) w []
  | Call_GetRegistrarForPlugin registry plugin_name k =>
      let rw := host_GetRegistrarForPlugin h registry plugin_name w in
      log (Requested registry plugin_name (fst rw)) (run h (k (fst rw)) (snd rw))
  | Call_entry f registrar k =>
      log (Registered f registrar) (run h k (host_entry h f registrar w))
  end.

(** *** Readings of a trace *)

(** The call made, without the handle that travelled with it. *)
Inductive CallSite : Type :=
| GetRegistrarForPlugin_of (registry : Registry) (plugin_name : string)
| entry_of (f : EntryPoint).

Definition call_site (e : Event) : CallSite :=
  match e with
  | Requested registry plugin_name _ => GetRegistrarForPlugin_of registry plugin_name
  | Registered f _ => entry_of f
  end.

Definition skeleton (tr : list Event) : list CallSite := map call_site tr.

(** Plugin names asked for, in order. *)
Fixpoint requested_names (tr : list Event) : list string :=
  match tr with
  | [] => []
  | Requested _ plugin_name _ :: tr' => plugin_name :: requested_names tr'
  | Registered _ _ :: tr' => requested_names tr'
  end.

(** Handles the registry returned, in order. *)
Fixpoint returned_handles (tr : list Event) : list Registrar :=
  match tr with
  | [] => []
  | Requested _ _ r :: tr' => r :: returned_handles tr'
  | Registered _ _ :: tr' => returned_handles tr'
  end.

(** Entry points called, in order. *)
Fixpoint registered_entries (tr : list Event) : list EntryPoint :=
  match tr with
  | [] => []
  | Requested _ _ _ :: tr' => registered_entries tr'
  | Registered f _ :: tr' => f :: registered_entries tr'
  end.

(** Handles passed to entry points, in order. *)
Fixpoint passed_handles (tr : list Event) : list Registrar :=
  match tr with
  | [] => []
  | Requested _ _ _ :: tr' => passed_handles tr'
  | Registered _ r :: tr' => r :: passed_handles tr'
  end.

(** How many times entry point [f] was called. *)
Definition registration_calls (f : EntryPoint) (tr : list Event) : nat :=
  count_occ EntryPoint_eq_dec (registered_entries tr) f.

(** Each request paired with the registration that comes right after
    it; the reading stops at the first event that does not fit. *)
Fixpoint pairings (tr : list Event) : list (string * EntryPoint) :=
  match tr with
  | Requested _ plugin_name _ :: Registered f _ :: tr' =>
      (plugin_name, f) :: pairings tr'
  | _ => []
  end.

(** Handles obtained and not yet handed on, as a balance. *)
Fixpoint in_flight (tr : list Event) : Z :=
  match tr with
  | [] => 0
  | Requested _ _ _ :: tr' => 1 + in_flight tr'
  | Registered _ _ :: tr' => in_flight tr' - 1
  end%Z.

(** The hand-over discipline as an automaton over the trace: with nothing
    held only a request may come, and it makes the returned handle the
    held one; with a handle held only a registration of that very handle
    may come, and it empties the hand; the trace ends empty-handed. *)
Fixpoint hand_over (held : option Registrar) (tr : list Event) : Prop :=
  match tr, held with
  | [], None => True
  | Requested _ _ r :: tr', None => hand_over (Some r) tr'
  | Registered _ r' :: tr', Some r => r' = r /\ hand_over None tr'
  | _, _ => False
  end.

(** A tree without a [Throw] node, whatever the external calls return. *)
Fixpoint never_throws {A : Type} (p : Cxx Registry Registrar A) : Prop :=
  match p with
  | Return _ => True
  | Throw _ => False
  | Call_GetRegistrarForPlugin _ _ k => forall r, never_throws (k r)
  | Call_entry _ _ k => never_throws k
  end.

(** A tree in which every path, whatever the external calls return, ends
    in [Return] after exactly [n] external calls. *)
Fixpoint returns_after {A : Type} (n : nat) (p : Cxx Registry Registrar A)
  : Prop :=
  match p, n with
  | Return _, O => True
  | Call_GetRegistrarForPlugin _ _ k, S n' => forall r, returns_after n' (k r)
  | Call_entry _ _ k, S n' => returns_after n' k
  | _, _ => False
  end.

(** *** The registrant as a loop over its plugin list *)

(** The generated body is the unrolling of one statement per plugin. *)
Fixpoint register_all (registry : Registry) (plugins : list (string * EntryPoint))
  : Cxx Registry Registrar unit :=
  match plugins with
  | [] => Return tt
  | (plugin_name, f) :: rest =>
      (r <- GetRegistrarForPlugin registry plugin_name ;;
       invoke f r ;;
       register_all registry rest)%cxx
  end.
End Semantics.

Arguments Event : clear implicits.
Arguments CallSite : clear implicits.
Arguments Host : clear implicits.
Arguments Run : clear implicits.
Arguments host_GetRegistrarForPlugin {Registry Registrar W} _ _ _ _.
Arguments host_entry {Registry Registrar W} _ _ _ _.
Arguments Build_Host {Registry Registrar W} _ _.
Arguments Normal {A} a.
Arguments Exceptional {A} what.
Arguments outcome {Registry Registrar W A} _.
Arguments final {Registry Registrar W A} _.
Arguments trace {Registry Registrar W A} _.

(** The string literals of lines 21-37 with the entry point each is handed
    to, in source order. *)
Definition plugin_list : list (string * EntryPoint) :=
  [ ("AudioplayersWindowsPlugin", AudioplayersWindowsPluginRegisterWithRegistrar);
    ("ConnectivityPlusWindowsPlugin", ConnectivityPlusWindowsPluginRegisterWithRegistrar);
    ("FlutterInappwebviewWindowsPluginCApi",
      FlutterInappwebviewWindowsPluginCApiRegisterWithRegistrar);
    ("FlutterSecureStorageWindowsPlugin",
      FlutterSecureStorageWindowsPluginRegisterWithRegistrar);
    ("LocalAuthPlugin", LocalAuthPluginRegisterWithRegistrar);
    ("PermissionHandlerWindowsPlugin",
      PermissionHandlerWindowsPluginRegisterWithRegistrar);
    ("RecordWindowsPluginCApi", RecordWindowsPluginCApiRegisterWithRegistrar);
    ("SpeechToTextWindows", SpeechToTextWindowsRegisterWithRegistrar);
    ("UrlLauncherWindows", UrlLauncherWindowsRegisterWithRegistrar) ].

(** What the calls of a list of plugins look like, handles left out. *)
Definition call_sites {Registry : Type} (registry : Registry)
    (plugins : list (string * EntryPoint)) : list (CallSite Registry) :=
  flat_map (fun p => [GetRegistrarForPlugin_of registry (fst p); entry_of (snd p)])
           plugins.

(** The class name of a plugin: its entry point's identifier without the
    [RegisterWithRegistrar] suffix. *)
Definition class_name (f : EntryPoint) : string :=
  substring 0 (String.length (symbol f) - String.length RegisterWithRegistrar)
            (symbol f).

(** The effect of a trace's calls on the program state, call by call. *)
Fixpoint replay {Registry Registrar W : Type} (h : Host Registry Registrar W)
    (tr : list (Event Registry Registrar)) (w : W) : W :=
  match tr with
  | [] => w
  | Requested registry plugin_name _ :: tr' =>
      replay h tr' (snd (host_GetRegistrarForPlugin h registry plugin_name w))
  | Registered f registrar :: tr' =>
      replay h tr' (host_entry h f registrar w)
  end.

(** ** What each plugin is for *)

(** The platform capabilities the bundled plugins provide. *)
Inductive Capability : Type :=
| AudioPlayback
| ConnectivityDetection
| WebViewEmbedding
| SecureStorage
| BiometricAuthentication
| PermissionHandling
| AudioRecording
| SpeechToText
| UrlLaunching.

(** The capability behind each entry point, read off the package that
    declares it: audioplayers_windows, connectivity_plus,
    flutter_inappwebview_windows, flutter_secure_storage_windows,
    local_auth_windows, permission_handler_windows, record_windows,
    speech_to_text_windows, url_launcher_windows. *)
Definition capability (f : EntryPoint) : Capability :=
  match f with
  | AudioplayersWindowsPluginRegisterWithRegistrar => AudioPlayback
  | ConnectivityPlusWindowsPluginRegisterWithRegistrar => ConnectivityDetection
  | FlutterInappwebviewWindowsPluginCApiRegisterWithRegistrar => WebViewEmbedding
  | FlutterSecureStorageWindowsPluginRegisterWithRegistrar => SecureStorage
  | LocalAuthPluginRegisterWithRegistrar => BiometricAuthentication
  | PermissionHandlerWindowsPluginRegisterWithRegistrar => PermissionHandling
  | RecordWindowsPluginCApiRegisterWithRegistrar => AudioRecording
  | SpeechToTextWindowsRegisterWithRegistrar => SpeechToText
  | UrlLauncherWindowsRegisterWithRegistrar => UrlLaunching
  end.

(** The enumeration of section 1 of the specification, "audio playback,
    connectivity detection, web view embedding, secure storage, biometric
    authentication, permission handling, audio recording, speech-to-text,
    URL launching", in the order it is written there. *)
Definition enumerated_capabilities : list Capability :=
  [ AudioPlayback; ConnectivityDetection; WebViewEmbedding; SecureStorage;
    BiometricAuthentication; PermissionHandling; AudioRecording; SpeechToText;
    UrlLaunching ].

(** ** Hosts that differ only in the handles they deal in *)

Section Related.
Context {Registry R1 R2 W1 W2 : Type}.
Variable rho : R1 -> R2 -> Prop.
Variable sigma : W1 -> W2 -> Prop.

(** The same call, with handles that correspond. *)
Inductive Event_related : Event Registry R1 -> Event Registry R2 -> Prop :=
| Requested_related registry plugin_name r1 r2 :
    rho r1 r2 ->
    Event_related (Requested registry plugin_name r1)
                  (Requested registry plugin_name r2)
| Registered_related f r1 r2 :
    rho r1 r2 ->
    Event_related (Registered f r1) (Registered f r2).

(** Two hosts that take corresponding states and handles to
    corresponding states and handles. *)
Definition Host_related (h1 : Host Registry R1 W1) (h2 : Host Registry R2 W2)
  : Prop :=
  (forall registry plugin_name w1 w2,
      sigma w1 w2 ->
      rho (fst (host_GetRegistrarForPlugin h1 registry plugin_name w1))
          (fst (host_GetRegistrarForPlugin h2 registry plugin_name w2)) /\
      sigma (snd (host_GetRegistrarForPlugin h1 registry plugin_name w1))
            (snd (host_GetRegistrarForPlugin h2 registry plugin_name w2))) /\
  (forall f r1 r2 w1 w2,
      rho r1 r2 -> sigma w1 w2 ->
      sigma (host_entry h1 f r1 w1) (host_entry h2 f r2 w2)).
End Related.

(** ** Concrete hosts *)

Module Windows.
(** Pointers as addresses, the null pointer being address zero. *)
Definition PluginRegistryPtr : Type := N.
Definition FlutterDesktopPluginRegistrarRef : Type := N.
Definition nullptr : FlutterDesktopPluginRegistrarRef := 0%N.

(** A program state: the registry's plugin table, the next fresh handle,
    and a cell that stands for everything else. *)
Record Process : Type := {
  plugin_table : list (EntryPoint * FlutterDesktopPluginRegistrarRef);
  next_handle : N;
  elsewhere : N
}.

Definition add_plugin (f : EntryPoint) (r : FlutterDesktopPluginRegistrarRef)
    (w : Process) : Process :=
  {| plugin_table := (f, r) :: plugin_table w;
     next_handle := next_handle w;
     elsewhere := elsewhere w |}.

(** A registry that hands out a fresh non-null handle per request, and
    entry points that enter themselves into the plugin table. *)
Definition running_engine
  : Host PluginRegistryPtr FlutterDesktopPluginRegistrarRef Process :=
  {| host_GetRegistrarForPlugin := fun _ _ w =>
       (next_handle w,
        {| plugin_table := plugin_table w;
           next_handle := N.succ (next_handle w);
           elsewhere := elsewhere w |});
     host_entry := add_plugin |}.

(** A registry that has no engine behind it and answers every request
    with the null handle. *)
Definition stopped_engine
  : Host PluginRegistryPtr FlutterDesktopPluginRegistrarRef Process :=
  {| host_GetRegistrarForPlugin := fun _ _ w => (nullptr, w);
     host_entry := add_plugin |}.

(** A host that deals in no handles at all and only counts the entry
    points called. *)
Definition counting_host : Host PluginRegistryPtr unit nat :=
  {| host_GetRegistrarForPlugin := fun _ _ n => (tt, n);
     host_entry := fun _ _ n => S n |}.

Definition startup : Process :=
  {| plugin_table := []; next_handle := 1%N; elsewhere := 42%N |}.

Definition the_registry : PluginRegistryPtr := 4096%N.

(** Every handle passed to an entry point is non-null. *)
Definition all_handed_nonnull
    (tr : list (Event PluginRegistryPtr FlutterDesktopPluginRegistrarRef))
  : Prop :=
  Forall (fun r => r <> nullptr) (passed_handles tr).
End Windows.

(** ** The include directives *)

(** The plugin headers of lines 9-17, in the order of the directives. *)
Definition plugin_includes : list string :=
  [ "audioplayers_windows/audioplayers_windows_plugin.h";
    "connectivity_plus/connectivity_plus_windows_plugin.h";
    "flutter_inappwebview_windows/flutter_inappwebview_windows_plugin_c_api.h";
    "flutter_secure_storage_windows/flutter_secure_storage_windows_plugin.h";
    "local_auth_windows/local_auth_plugin.h";
    "permission_handler_windows/permission_handler_windows_plugin.h";
    "record_windows/record_windows_plugin_c_api.h";
    "speech_to_text_windows/speech_to_text_windows.h";
    "url_launcher_windows/url_launcher_windows.h" ].

Fixpoint has_char (c : ascii) (s : string) : bool :=
  match s with
  | EmptyString => false
  | String c' s' => Ascii.eqb c c' || has_char c s'
  end.

(** What follows the last [sep] of [s]; all of [s] when it has none. *)
Fixpoint after_last (sep : ascii) (s : string) : string :=
  match s with
  | EmptyString => EmptyString
  | String c s' =>
      if has_char sep s' then after_last sep s'
      else if Ascii.eqb c sep then s' else s
  end.

(** What precedes the first [sep] of [s]; all of [s] when it has none. *)
Fixpoint before_first (sep : ascii) (s : string) : string :=
  match s with
  | EmptyString => EmptyString
  | String c s' =>
      if Ascii.eqb c sep then EmptyString else String c (before_first sep s')
  end.

(** The package directory of an include path. *)
Definition package (include : string) : string := before_first "/" include.

(** The file name of an include path without its two-character [.h]
    extension. *)
Definition header_stem (include : string) : string :=
  let file := after_last "/" include in
  substring 0 (String.length file - 2) file.

Definition upper (c : ascii) : ascii :=
  let n := nat_of_ascii c in
  if Nat.leb 97 n && Nat.leb n 122 then ascii_of_nat (n - 32) else c.

(** A lower-case name with underscores as a capitalised one without:
    [local_auth_plugin] becomes [LocalAuthPlugin]. *)
Fixpoint camel_case (capital : bool) (s : string) : string :=
  match s with
  | EmptyString => EmptyString
  | String c s' =>
      if Ascii.eqb c "_" then camel_case true s'
      else String (if capital then upper c else c) (camel_case false s')
  end.

(** ** A second concrete host *)

Module Stub.
(** A host whose whole state is a counter: the registry hands out the
    counter and steps it, the entry points do nothing. *)
Definition counter_registry : Host N N N :=
  {| host_GetRegistrarForPlugin := fun _ _ n => (n, N.succ n);
     host_entry := fun _ _ n => n |}.
End Stub.

(** * Properties *)

(** ** The call-tree monad and the unrolled loop *)

Lemma RegisterPlugins_unrolls {Registry Registrar} (registry : Registry) :
  @RegisterPlugins Registry Registrar registry = register_all registry plugin_list.
Proof. reflexivity. Qed.

Section RunFacts.
Context {Registry Registrar W : Type}.
Variable h : Host Registry Registrar W.

Lemma run_register_all_cons (registry : Registry) plugin_name f rest (w : W) :
  run h (register_all registry ((plugin_name, f) :: rest)) w =
  let rw := host_GetRegistrarForPlugin h registry plugin_name w in
  log (Requested registry plugin_name (fst rw))
      (log (Registered f (fst rw))
           (run h (register_all registry rest)
                (host_entry h f (fst rw) (snd rw)))).
Proof. reflexivity. Qed.

(** The state a run ends in is the one its external calls leave behind:
    a call tree has no node that writes. *)
Lemma final_is_replay {A} (p : Cxx Registry Registrar A) (w : W) :
  final (run h p w) = replay h (trace (run h p w)) w.
Proof.
  revert w. induction p as [a | what | registry plugin_name k IH | f r k IH];
    intros w; simpl; auto.
Qed.

(** A state component that no external call changes is not changed by a
    run either. *)
Lemma replay_frame {B} (obs : W -> B) (tr : list (Event Registry Registrar)) :
  (forall registry plugin_name r, In (Requested registry plugin_name r) tr ->
     forall w, obs (snd (host_GetRegistrarForPlugin h registry plugin_name w)) = obs w) ->
  (forall f r, In (Registered f r) tr ->
     forall w, obs (host_entry h f r w) = obs w) ->
  forall w, obs (replay h tr w) = obs w.
Proof.
  induction tr as [| [registry plugin_name r | f r] tr IH];
    intros Hget Hentry w; simpl; [reflexivity | |].
  - rewrite IH.
    + apply (Hget registry plugin_name r). left; reflexivity.
    + intros; eapply Hget; right; eassumption.
    + intros; eapply Hentry; right; eassumption.
  - rewrite IH.
    + apply (Hentry f r). left; reflexivity.
    + intros; eapply Hget; right; eassumption.
    + intros; eapply Hentry; right; eassumption.
Qed.

Section Loop.
Variable registry : Registry.

Ltac by_loop_induction plugins w :=
  revert w; induction plugins as [| [plugin_name f] rest IH]; intros w;
  [ try reflexivity
  | rewrite run_register_all_cons; cbn zeta; unfold log; cbn [trace outcome final] ].

Lemma outcome_register_all plugins (w : W) :
  outcome (run h (register_all registry plugins) w) = Normal tt.
Proof. by_loop_induction plugins w. apply IH. Qed.

Lemma skeleton_register_all plugins (w : W) :
  skeleton (trace (run h (register_all registry plugins) w)) =
  call_sites registry plugins.
Proof.
  by_loop_induction plugins w.
  unfold skeleton in *. cbn [map call_site call_sites flat_map fst snd app].
  f_equal. f_equal. apply IH.
Qed.

Lemma requested_names_register_all plugins (w : W) :
  requested_names (trace (run h (register_all registry plugins) w)) =
  map fst plugins.
Proof.
  by_loop_induction plugins w.
  cbn [requested_names map fst]. f_equal. apply IH.
Qed.

Lemma registered_entries_register_all plugins (w : W) :
  registered_entries (trace (run h (register_all registry plugins) w)) =
  map snd plugins.
Proof.
  by_loop_induction plugins w.
  cbn [registered_entries map snd]. f_equal. apply IH.
Qed.

Lemma pairings_register_all plugins (w : W) :
  pairings (trace (run h (register_all registry plugins) w)) = plugins.
Proof.
  by_loop_induction plugins w.
  cbn [pairings]. f_equal. apply IH.
Qed.

Lemma handles_register_all plugins (w : W) :
  passed_handles (trace (run h (register_all registry plugins) w)) =
  returned_handles (trace (run h (register_all registry plugins) w)).
Proof.
  by_loop_induction plugins w.
  cbn [passed_handles returned_handles]. f_equal. apply IH.
Qed.

Lemma hand_over_register_all plugins (w : W) :
  hand_over None (trace (run h (register_all registry plugins) w)).
Proof.
  by_loop_induction plugins w.
  cbn [hand_over]. split; [reflexivity | apply IH].
Qed.

Lemma length_register_all plugins (w : W) :
  length (trace (run h (register_all registry plugins) w)) =
  2 * length plugins.
Proof.
  by_loop_induction plugins w.
  cbn [length]. rewrite IH. lia.
Qed.

Lemma in_flight_register_all plugins (w : W) (n : nat) :
  (0 <= in_flight (firstn n (trace (run h (register_all registry plugins) w)))
   <= 1)%Z.
Proof.
  revert n. by_loop_induction plugins w; intros n.
  - rewrite firstn_nil. simpl. lia.
  - destruct n as [| [| n]]; cbn [firstn in_flight]; try lia.
    match goal with
    | |- context [firstn n (trace (run h ?p ?w'))] => specialize (IH w' n)
    end.
    lia.
Qed.

(** The call made for a plugin of the list: a request under its name,
    then its entry point on the handle that request returned. *)
Lemma registration_in_trace plugins plugin_name f (w : W) :
  In (plugin_name, f) plugins ->
  exists before r after,
    trace (run h (register_all registry plugins) w) =
    before ++ Requested registry plugin_name r :: Registered f r :: after.
Proof.
  revert w. induction plugins as [| [plugin_name' f'] rest IH]; intros w Hin.
  - destruct Hin.
  - rewrite run_register_all_cons; cbn zeta; unfold log;
      cbn [trace outcome final].
    destruct Hin as [Heq | Hin].
    + inversion Heq; subst.
      exists [], (fst (host_GetRegistrarForPlugin h registry plugin_name w)).
      eexists. reflexivity.
    + match goal with
      | |- context [trace (run h (register_all registry rest) ?w')] =>
          destruct (IH w' Hin) as (before & r & after & Htr)
      end.
      rewrite Htr.
      eexists (_ :: _ :: before), r, after. reflexivity.
Qed.
End Loop.
End RunFacts.

Lemma returns_after_register_all {Registry Registrar} (registry : Registry) plugins :
  returns_after (2 * length plugins)
                (@register_all Registry Registrar registry plugins).
Proof.
  induction plugins as [| [plugin_name f] rest IH]; [exact I |].
  cbn [length]. replace (2 * S (length rest)) with (S (S (2 * length rest))) by lia.
  intros r. exact IH.
Qed.

Lemma never_throws_register_all {Registry Registrar} (registry : Registry) plugins :
  never_throws (@register_all Registry Registrar registry plugins).
Proof.
  induction plugins as [| [plugin_name f] rest IH]; [exact I |].
  intros r. exact IH.
Qed.

(** Requests go to the registry the loop was given, and to no other. *)
Lemma requests_on_registry {Registry Registrar W} (h : Host Registry Registrar W)
    (registry : Registry) plugins (w : W) registry' plugin_name r :
  In (Requested registry' plugin_name r)
     (trace (run h (register_all registry plugins) w)) ->
  registry' = registry.
Proof.
  revert w. induction plugins as [| [plugin_name' f'] rest IH]; intros w Hin.
  - destruct Hin.
  - rewrite run_register_all_cons in Hin; cbn zeta in Hin; unfold log in Hin;
      cbn [trace] in Hin.
    destruct Hin as [Heq | [Heq | Hin]].
    + now inversion Heq.
    + discriminate Heq.
    + eapply IH; eassumption.
Qed.

(** Related hosts give related runs: the loop cannot tell one family of
    handles from another. *)
Lemma related_register_all {Registry R1 R2 W1 W2}
    (rho : R1 -> R2 -> Prop) (sigma : W1 -> W2 -> Prop)
    (h1 : Host Registry R1 W1) (h2 : Host Registry R2 W2) (registry : Registry) :
  Host_related rho sigma h1 h2 ->
  forall plugins w1 w2,
    sigma w1 w2 ->
    Forall2 (Event_related rho)
            (trace (run h1 (register_all registry plugins) w1))
            (trace (run h2 (register_all registry plugins) w2)) /\
    sigma (final (run h1 (register_all registry plugins) w1))
          (final (run h2 (register_all registry plugins) w2)).
Proof.
  intros [Hget Hentry] plugins.
  induction plugins as [| [plugin_name f] rest IH]; intros w1 w2 Hw.
  - split; [constructor | exact Hw].
  - rewrite !run_register_all_cons; cbn zeta; unfold log; cbn [trace final].
    destruct (Hget registry plugin_name w1 w2 Hw) as [Hr Hw'].
    specialize (Hentry f _ _ _ _ Hr Hw').
    destruct (IH _ _ Hentry) as [Htr Hfin].
    split; [| exact Hfin].
    constructor; [constructor; exact Hr |].
    constructor; [constructor; exact Hr | exact Htr].
Qed.

(** ** The claims about [RegisterPlugins] *)

Section Claims.
Context {Registry Registrar : Type}.

(** C1, as amended.  For every registry and every one of the nine entry
    points, [RegisterPlugins] calls that entry point exactly once, and the
    registrar it passes is the handle that the very registry it was given
    returned, in the call right before, to a request under the plugin's
    own class name.  Nothing is said about the handle being non-null: it
    is whatever the registry returned. *)
Theorem each_plugin_registered_once_under_its_name
    {W} (h : Host Registry Registrar W) (registry : Registry) (w : W)
    (f : EntryPoint) :
  let tr := trace (run h (RegisterPlugins registry) w) in
  registration_calls f tr = 1 /\
  exists before r after,
    tr = before ++ Requested registry (class_name f) r :: Registered f r :: after.
Proof.
  cbn zeta. rewrite RegisterPlugins_unrolls. split.
  - unfold registration_calls. rewrite registered_entries_register_all.
    destruct f; reflexivity.
  - apply registration_in_trace. destruct f; cbv; tauto.
Qed.

(** C2.  [RegisterPlugins] is straight-line code.  Against any two
    hosts, starting from any two states, it returns normally and makes the
    same eighteen calls in the same order: the nine requests, with the
    same names, each followed by its entry point.  The only value that
    travels from one call to another is the handle a request returned,
    and it travels to the next call only: the handle passed at the k-th
    registration is settled by what the k-th request returned, whatever
    the other requests returned. *)
Theorem RegisterPlugins_straight_line
    {W1 W2} (h1 : Host Registry Registrar W1) (h2 : Host Registry Registrar W2)
    (registry : Registry) (w1 : W1) (w2 : W2) :
  let r1 := run h1 (RegisterPlugins registry) w1 in
  let r2 := run h2 (RegisterPlugins registry) w2 in
  outcome r1 = Normal tt /\ outcome r2 = Normal tt /\
  skeleton (trace r1) = call_sites registry plugin_list /\
  skeleton (trace r2) = skeleton (trace r1) /\
  requested_names (trace r2) = requested_names (trace r1) /\
  forall k,
    nth_error (returned_handles (trace r1)) k =
    nth_error (returned_handles (trace r2)) k ->
    nth_error (passed_handles (trace r1)) k =
    nth_error (passed_handles (trace r2)) k.
Proof.
  cbn zeta. rewrite RegisterPlugins_unrolls.
  rewrite !outcome_register_all, !skeleton_register_all,
    !requested_names_register_all, !handles_register_all.
  repeat split; auto.
Qed.

(** C3.  The entry points are called in the order in which the
    specification enumerates the capabilities: audio playback,
    connectivity detection, web view embedding, secure storage, biometric
    authentication, permission handling, audio recording, speech-to-text,
    URL launching. *)
Theorem registration_order_is_enumeration_order
    {W} (h : Host Registry Registrar W) (registry : Registry) (w : W) :
  map capability (registered_entries (trace (run h (RegisterPlugins registry) w)))
  = enumerated_capabilities.
Proof.
  rewrite RegisterPlugins_unrolls, registered_entries_register_all.
  reflexivity.
Qed.

(** C4.  [RegisterPlugins] returns nothing, and what it does to the
    program state is what the calls it forwards do, one after the other.
    So a part of the state that neither a request to the given registry
    nor an entry point changes (any part but the registry's plugin table,
    when those calls touch that table only) is the same after the call as
    before. *)
Theorem RegisterPlugins_frame
    {W B} (h : Host Registry Registrar W) (registry : Registry)
    (obs : W -> B) (w : W)
    (Hget : forall plugin_name w',
        obs (snd (host_GetRegistrarForPlugin h registry plugin_name w')) = obs w')
    (Hentry : forall f r w', obs (host_entry h f r w') = obs w') :
  let res := run h (RegisterPlugins registry) w in
  outcome res = Normal tt /\
  final res = replay h (trace res) w /\
  obs (final res) = obs w.
Proof.
  cbn zeta. split; [| split].
  - rewrite RegisterPlugins_unrolls. apply outcome_register_all.
  - apply final_is_replay.
  - rewrite final_is_replay. apply replay_frame.
    + intros registry' plugin_name r Hin w'.
      rewrite RegisterPlugins_unrolls in Hin.
      apply requests_on_registry in Hin. subst registry'. apply Hget.
    + intros f r _ w'. apply Hentry.
Qed.
End Claims.

Section MoreClaims.
Context {Registry Registrar : Type}.

(** C5.  Every handle a request returns is handed, as it is, to the
    registration that follows, and [RegisterPlugins] looks at none of
    them: run against two hosts whose handles and states correspond under
    any relations whatever, it makes the same calls with corresponding
    handles and ends in corresponding states. *)
Theorem registrars_forwarded_untouched
    {Registrar' W W'} (rho : Registrar -> Registrar' -> Prop)
    (sigma : W -> W' -> Prop)
    (h : Host Registry Registrar W) (h' : Host Registry Registrar' W')
    (registry : Registry) (w : W) (w' : W')
    (Hhosts : Host_related rho sigma h h') (Hstates : sigma w w') :
  let res := run h (RegisterPlugins registry) w in
  let res' := run h' (RegisterPlugins registry) w' in
  passed_handles (trace res) = returned_handles (trace res) /\
  length (passed_handles (trace res)) = 9 /\
  Forall2 (Event_related rho) (trace res) (trace res') /\
  sigma (final res) (final res').
Proof.
  cbn zeta. rewrite !RegisterPlugins_unrolls.
  destruct (related_register_all rho sigma h h' registry Hhosts
              plugin_list w w' Hstates) as [Htr Hfin].
  split; [apply handles_register_all |].
  split; [reflexivity |].
  split; assumption.
Qed.

(** C6.  [RegisterPlugins] has no failure path.  Against every host it
    returns normally; its call tree has no throwing node whatever the
    registry returns; and it goes on to call all nine entry points
    whatever happened in the calls before, there being no code that looks
    at how a registration went. *)
Theorem RegisterPlugins_no_failure_path
    {W} (h : Host Registry Registrar W) (registry : Registry) (w : W) :
  outcome (run h (RegisterPlugins registry) w) = Normal tt /\
  @never_throws Registry Registrar unit (RegisterPlugins registry) /\
  registered_entries (trace (run h (RegisterPlugins registry) w)) =
  map snd plugin_list.
Proof.
  rewrite RegisterPlugins_unrolls. split; [| split].
  - apply outcome_register_all.
  - apply never_throws_register_all.
  - apply registered_entries_register_all.
Qed.

(** C7.  In each of the nine request-registration pairs, the string
    passed to [GetRegistrarForPlugin] is the class name of the plugin whose
    entry point is called next: the entry point's identifier is that
    string followed by [RegisterWithRegistrar]. *)
Theorem requested_name_is_class_name
    {W} (h : Host Registry Registrar W) (registry : Registry) (w : W) :
  let tr := trace (run h (RegisterPlugins registry) w) in
  length (pairings tr) = 9 /\
  Forall (fun p => fst p = class_name (snd p) /\
                   symbol (snd p) = (fst p ++ RegisterWithRegistrar)%string)
         (pairings tr).
Proof.
  cbn zeta. rewrite RegisterPlugins_unrolls, pairings_register_all.
  split; [reflexivity |].
  repeat (constructor; [split; reflexivity |]). constructor.
Qed.

(** C8.  The nine plugin names requested are pairwise distinct, and so
    are the nine entry points called: within one call of
    [RegisterPlugins] no name is requested twice and no plugin is
    registered twice. *)
Theorem plugin_names_pairwise_distinct
    {W} (h : Host Registry Registrar W) (registry : Registry) (w : W) :
  let tr := trace (run h (RegisterPlugins registry) w) in
  NoDup (requested_names tr) /\ NoDup (registered_entries tr).
Proof.
  cbn zeta.
  rewrite RegisterPlugins_unrolls, requested_names_register_all,
    registered_entries_register_all.
  split; cbn [map fst snd plugin_list];
    repeat (constructor; [cbn [In]; intuition discriminate |]); constructor.
Qed.

(** C9.  [RegisterPlugins] terminates against every host: it returns
    after exactly eighteen external calls, nine requests and nine
    registrations, and every path through its call tree has that
    length. *)
Theorem RegisterPlugins_terminates_after_18_calls
    {W} (h : Host Registry Registrar W) (registry : Registry) (w : W) :
  let res := run h (RegisterPlugins registry) w in
  outcome res = Normal tt /\
  length (trace res) = 18 /\
  length (requested_names (trace res)) = 9 /\
  length (registered_entries (trace res)) = 9 /\
  @returns_after Registry Registrar unit 18 (RegisterPlugins registry).
Proof.
  cbn zeta. rewrite RegisterPlugins_unrolls.
  rewrite outcome_register_all, length_register_all,
    requested_names_register_all, registered_entries_register_all.
  split; [reflexivity |]. split; [reflexivity |].
  split; [reflexivity |]. split; [reflexivity |].
  apply (returns_after_register_all registry plugin_list).
Qed.

(** C10.  [RegisterPlugins] never holds more than one registrar that it
    has not handed on: after any number of calls of its trace the balance
    of handles obtained and not yet passed is zero or one, and the trace
    follows the hand-over discipline (request, registration of the
    returned handle, request, ...). *)
Theorem at_most_one_registrar_in_flight
    {W} (h : Host Registry Registrar W) (registry : Registry) (w : W)
    (n : nat) :
  let tr := trace (run h (RegisterPlugins registry) w) in
  (0 <= in_flight (firstn n tr) <= 1)%Z /\ hand_over None tr.
Proof.
  cbn zeta. rewrite RegisterPlugins_unrolls. split.
  - apply in_flight_register_all.
  - apply hand_over_register_all.
Qed.
End MoreClaims.

(** ** Concrete runs *)

Module WindowsRuns.
Import Windows.

(** The run against a registry with an engine behind it. *)
Example running_engine_trace :
  trace (run running_engine (RegisterPlugins the_registry) startup) =
  [ Requested 4096%N "AudioplayersWindowsPlugin" 1%N;
    Registered AudioplayersWindowsPluginRegisterWithRegistrar 1%N;
    Requested 4096%N "ConnectivityPlusWindowsPlugin" 2%N;
    Registered ConnectivityPlusWindowsPluginRegisterWithRegistrar 2%N;
    Requested 4096%N "FlutterInappwebviewWindowsPluginCApi" 3%N;
    Registered FlutterInappwebviewWindowsPluginCApiRegisterWithRegistrar 3%N;
    Requested 4096%N "FlutterSecureStorageWindowsPlugin" 4%N;
    Registered FlutterSecureStorageWindowsPluginRegisterWithRegistrar 4%N;
    Requested 4096%N "LocalAuthPlugin" 5%N;
    Registered LocalAuthPluginRegisterWithRegistrar 5%N;
    Requested 4096%N "PermissionHandlerWindowsPlugin" 6%N;
    Registered PermissionHandlerWindowsPluginRegisterWithRegistrar 6%N;
    Requested 4096%N "RecordWindowsPluginCApi" 7%N;
    Registered RecordWindowsPluginCApiRegisterWithRegistrar 7%N;
    Requested 4096%N "SpeechToTextWindows" 8%N;
    Registered SpeechToTextWindowsRegisterWithRegistrar 8%N;
    Requested 4096%N "UrlLauncherWindows" 9%N;
    Registered UrlLauncherWindowsRegisterWithRegistrar 9%N ].
Proof. reflexivity. Qed.

(** C1, as stated, fails: a registry that answers with the null handle
    gets that null handle passed to every entry point. *)
Lemma stopped_engine_hands_null :
  passed_handles
    (trace (run stopped_engine (RegisterPlugins the_registry) startup))
  = repeat nullptr 9 /\
  ~ all_handed_nonnull
      (trace (run stopped_engine (RegisterPlugins the_registry) startup)).
Proof.
  split; [reflexivity |].
  intros Hall. unfold all_handed_nonnull in Hall.
  inversion Hall as [| r rest Hr _]. apply Hr. reflexivity.
Qed.

(** C4 at a concrete host: the cell outside the plugin table keeps its
    value over the call. *)
Lemma RegisterPlugins_frame_witness :
  outcome (run running_engine (RegisterPlugins the_registry) startup)
  = Normal tt /\
  final (run running_engine (RegisterPlugins the_registry) startup) =
  replay running_engine
    (trace (run running_engine (RegisterPlugins the_registry) startup)) startup /\
  elsewhere (final (run running_engine (RegisterPlugins the_registry) startup))
  = 42%N.
Proof.
  apply (RegisterPlugins_frame running_engine the_registry elsewhere startup).
  - intros plugin_name w'. reflexivity.
  - intros f r w'. reflexivity.
Defined.

(** C5 at concrete hosts: a host with numbered handles against one that
    deals in no handles at all, the states being related by the number of
    plugins entered. *)
Lemma registrars_forwarded_untouched_witness :
  let res := run running_engine (RegisterPlugins the_registry) startup in
  let res' := run counting_host (RegisterPlugins the_registry) 0 in
  passed_handles (trace res) = returned_handles (trace res) /\
  length (passed_handles (trace res)) = 9 /\
  Forall2 (Event_related (fun _ _ => True)) (trace res) (trace res') /\
  length (plugin_table (final res)) = final res'.
Proof.
  apply (registrars_forwarded_untouched
           (fun (_ : FlutterDesktopPluginRegistrarRef) (_ : unit) => True)
           (fun (p : Process) (n : nat) => length (plugin_table p) = n)
           running_engine counting_host the_registry startup 0).
  - split.
    + intros registry plugin_name w1 w2 Hlen. split; [exact I | exact Hlen].
    + intros f r1 r2 w1 w2 _ Hlen. simpl. f_equal. exact Hlen.
  - reflexivity.
Defined.
End WindowsRuns.

(** ** Further properties of [RegisterPlugins] *)

(** Running [m] and then [g] on its result: the second part starts in the
    state the first ended in, and the traces follow one another; when the
    first part leaves by an exception the second is not run. *)
Lemma run_bind {Registry Registrar W A B} (h : Host Registry Registrar W)
    (m : Cxx Registry Registrar A) (g : A -> Cxx Registry Registrar B) (w : W) :
  run h (bind m g) w =
  match outcome (run h m w) with
  | Normal a =>
      {| outcome := outcome (run h (g a) (final (run h m w)));
         final := final (run h (g a) (final (run h m w)));
         trace := trace (run h m w) ++
                  trace (run h (g a) (final (run h m w))) |}
  | Exceptional what =>
      {| outcome := Exceptional what;
         final := final (run h m w);
         trace := trace (run h m w) |}
  end.
Proof.
  revert w. induction m as [a | what | registry plugin_name k IH | f r k IH];
    intros w; cbn [bind run].
  - cbn. destruct (run h (g a) w); reflexivity.
  - reflexivity.
  - rewrite IH. unfold log.
    destruct (outcome (run h (k _) _)); reflexivity.
  - rewrite IH. unfold log.
    destruct (outcome (run h k _)); reflexivity.
Qed.

(** The same for a first part that returns normally, field by field. *)
Lemma run_then {Registry Registrar W} (h : Host Registry Registrar W)
    (p q : Cxx Registry Registrar unit) (w : W) :
  outcome (run h p w) = Normal tt ->
  outcome (run h (p ;; q)%cxx w) = outcome (run h q (final (run h p w))) /\
  final (run h (p ;; q)%cxx w) = final (run h q (final (run h p w))) /\
  trace (run h (p ;; q)%cxx w) =
  trace (run h p w) ++ trace (run h q (final (run h p w))).
Proof. intros Hp. rewrite run_bind, Hp. repeat split. Qed.

Lemma count_occ_app_entries (l1 l2 : list EntryPoint) (f : EntryPoint) :
  count_occ EntryPoint_eq_dec (l1 ++ l2) f =
  count_occ EntryPoint_eq_dec l1 f + count_occ EntryPoint_eq_dec l2 f.
Proof. apply count_occ_app. Qed.

Lemma registered_entries_app {Registry Registrar}
    (tr1 tr2 : list (Event Registry Registrar)) :
  registered_entries (tr1 ++ tr2) = registered_entries tr1 ++ registered_entries tr2.
Proof.
  induction tr1 as [| [registry plugin_name r | f r] tr1 IH]; simpl;
    [reflexivity | exact IH | f_equal; exact IH].
Qed.

(** Handles that stand the test [valid] reach the entry points when the
    registry hands out nothing else, the states along the way keeping an
    invariant the registry may rely on. *)
Lemma valid_register_all {Registry Registrar W} (h : Host Registry Registrar W)
    (registry : Registry) (valid : Registrar -> Prop) (Inv : W -> Prop) :
  (forall plugin_name w,
      Inv w ->
      valid (fst (host_GetRegistrarForPlugin h registry plugin_name w)) /\
      Inv (snd (host_GetRegistrarForPlugin h registry plugin_name w))) ->
  (forall f r w, valid r -> Inv w -> Inv (host_entry h f r w)) ->
  forall plugins w,
    Inv w ->
    Forall valid (passed_handles (trace (run h (register_all registry plugins) w))) /\
    Inv (final (run h (register_all registry plugins) w)).
Proof.
  intros Hget Hentry plugins.
  induction plugins as [| [plugin_name f] rest IH]; intros w Hw.
  - split; [constructor | exact Hw].
  - rewrite run_register_all_cons; cbn zeta; unfold log;
      cbn [trace final passed_handles].
    destruct (Hget plugin_name w Hw) as [Hr Hw'].
    destruct (IH _ (Hentry f _ _ Hr Hw')) as [Hall Hfin].
    split; [constructor; assumption | exact Hfin].
Qed.

(** Two runs of the loop in which the registry returned the same handles
    are the same runs, call for call. *)
Lemma same_handles_same_trace {Registry Registrar W1 W2}
    (h1 : Host Registry Registrar W1) (h2 : Host Registry Registrar W2)
    (registry : Registry) plugins :
  forall w1 w2,
    returned_handles (trace (run h1 (register_all registry plugins) w1)) =
    returned_handles (trace (run h2 (register_all registry plugins) w2)) ->
    trace (run h1 (register_all registry plugins) w1) =
    trace (run h2 (register_all registry plugins) w2).
Proof.
  induction plugins as [| [plugin_name f] rest IH]; intros w1 w2; [reflexivity |].
  rewrite !run_register_all_cons; cbn zeta; unfold log;
    cbn [trace returned_handles].
  intros Heq. injection Heq as Hr Hrest.
  rewrite (IH _ _ Hrest), Hr. reflexivity.
Qed.

Section Extras.
Context {Registry Registrar : Type}.

(** X1.  [RegisterPlugins] keeps no record of having run.  Called a
    second time, on the same registry or on another, it makes all eighteen
    calls again, starting in the state the first call left: the trace of the
    two calls is the first call's trace followed by the second's, the
    requests of each call go to that call's registry, and every entry point
    has been called exactly twice. *)
Theorem RegisterPlugins_again
    {W} (h : Host Registry Registrar W) (registry1 registry2 : Registry)
    (w : W) :
  let first := run h (RegisterPlugins registry1) w in
  let second := run h (RegisterPlugins registry2) (final first) in
  let both := run h (RegisterPlugins registry1 ;; RegisterPlugins registry2)%cxx w in
  outcome both = Normal tt /\
  final both = final second /\
  trace both = trace first ++ trace second /\
  skeleton (trace both) =
    call_sites registry1 plugin_list ++ call_sites registry2 plugin_list /\
  forall f, registration_calls f (trace both) = 2.
Proof.
  cbn zeta.
  destruct (run_then h (RegisterPlugins registry1) (RegisterPlugins registry2) w)
    as (Houtcome & Hfinal & Htrace);
    [rewrite RegisterPlugins_unrolls; apply outcome_register_all |].
  rewrite Houtcome, Hfinal, Htrace. clear Houtcome Hfinal Htrace.
  generalize (final (run h (RegisterPlugins registry1) w)); intros w'.
  rewrite !RegisterPlugins_unrolls.
  split; [apply outcome_register_all |].
  split; [reflexivity |].
  split; [reflexivity |].
  split.
  - pose proof (skeleton_register_all h registry1 plugin_list w) as H1.
    pose proof (skeleton_register_all h registry2 plugin_list w') as H2.
    unfold skeleton in *. rewrite map_app, H1, H2. reflexivity.
  - intros f. unfold registration_calls.
    rewrite registered_entries_app, count_occ_app_entries,
      !registered_entries_register_all.
    destruct f; reflexivity.
Qed.

(** X2.  When the registry hands out only handles that stand a test (being
    non-null, say) as long as the program state keeps an invariant, and the
    entry points keep that invariant when given such a handle, then every
    handle [RegisterPlugins] passes to an entry point stands the test, and
    the invariant holds when it returns. *)
Theorem valid_handles_reach_the_plugins
    {W} (h : Host Registry Registrar W) (registry : Registry)
    (valid : Registrar -> Prop) (Inv : W -> Prop) (w : W)
    (Hget : forall plugin_name w',
        Inv w' ->
        valid (fst (host_GetRegistrarForPlugin h registry plugin_name w')) /\
        Inv (snd (host_GetRegistrarForPlugin h registry plugin_name w')))
    (Hentry : forall f r w', valid r -> Inv w' -> Inv (host_entry h f r w'))
    (Hw : Inv w) :
  let res := run h (RegisterPlugins registry) w in
  Forall valid (passed_handles (trace res)) /\ Inv (final res).
Proof.
  cbn zeta. rewrite RegisterPlugins_unrolls.
  apply valid_register_all; assumption.
Qed.

(** X3.  The world outside reaches the calls of [RegisterPlugins] through
    the nine handles the registry returns and through nothing else: two
    runs, against any hosts and from any states, in which the registry
    returned the same handles made exactly the same calls with the same
    arguments. *)
Theorem trace_settled_by_returned_handles
    {W1 W2} (h1 : Host Registry Registrar W1) (h2 : Host Registry Registrar W2)
    (registry : Registry) (w1 : W1) (w2 : W2)
    (Hsame : returned_handles (trace (run h1 (RegisterPlugins registry) w1)) =
             returned_handles (trace (run h2 (RegisterPlugins registry) w2))) :
  trace (run h1 (RegisterPlugins registry) w1) =
  trace (run h2 (RegisterPlugins registry) w2).
Proof.
  revert Hsame. rewrite !RegisterPlugins_unrolls.
  apply same_handles_same_trace.
Qed.

(** X4.  The include directives and the registrations go together, one
    header per plugin and in the same order: the file name of the k-th
    plugin header, capitalised, is the plugin name of the k-th request; and
    the nine headers come from nine different packages. *)
Theorem includes_match_registrations
    {W} (h : Host Registry Registrar W) (registry : Registry) (w : W) :
  map (fun include => camel_case true (header_stem include)) plugin_includes =
  requested_names (trace (run h (RegisterPlugins registry) w)) /\
  NoDup (map package plugin_includes).
Proof.
  rewrite RegisterPlugins_unrolls, requested_names_register_all.
  split; [reflexivity |].
  cbn; repeat (constructor; [cbn [In]; intuition discriminate |]); constructor.
Qed.
End Extras.

Module MoreRuns.
Import Windows.

(** X2 at a concrete host: the running engine's handles are non-null as
    long as its next fresh handle is. *)
Lemma valid_handles_reach_the_plugins_witness :
  Forall (fun r => r <> nullptr)
    (passed_handles
       (trace (run running_engine (RegisterPlugins the_registry) startup))) /\
  next_handle (final (run running_engine (RegisterPlugins the_registry) startup))
  <> 0%N.
Proof.
  apply (valid_handles_reach_the_plugins running_engine the_registry
           (fun r => r <> nullptr) (fun p => next_handle p <> 0%N) startup).
  - intros plugin_name w' Hw'. unfold nullptr. simpl. split; lia.
  - intros f r w' _ Hw'. exact Hw'.
  - simpl. lia.
Defined.

(** X3 at concrete hosts: the running engine and the counter registry
    both hand out 1 to 9. *)
Lemma trace_settled_by_returned_handles_witness :
  returned_handles
    (trace (run running_engine (RegisterPlugins the_registry) startup)) =
  returned_handles
    (trace (run Stub.counter_registry (RegisterPlugins the_registry) 1%N)) /\
  trace (run running_engine (RegisterPlugins the_registry) startup) =
  trace (run Stub.counter_registry (RegisterPlugins the_registry) 1%N).
Proof.
  split; [reflexivity |].
  apply (trace_settled_by_returned_handles running_engine Stub.counter_registry
           the_registry startup 1%N).
  reflexivity.
Defined.
End MoreRuns.
